(** * Availability API (src/server/api.js): a shallow embedding

    The Express handlers of [src/server/api.js] are embedded as pure
    functions from the answer of the store client ([{ data, error }]) to the
    pair of what is written to the server console and the HTTP response.
    The store itself (a remote table reached through the client created in
    [./supabase]) is not part of the source file; it is modelled separately
    in [Module Store], from the specification. *)

From Stdlib Require Import ZArith String Ascii List.
From stdpp Require Import base option list gmap strings sorting pretty.

Local Open Scope string_scope.
Local Open Scope Z_scope.

(** ** JavaScript values *)

(** The JSON values that travel between the request body, the store and the
    response, plus [undefined] (a property that is missing).  Numbers are
    integer valued here: the handlers only ever test a number for
    truthiness. *)
#[warnings="-register-all"]
Inductive value : Type :=
  | VUndefined
  | VNull
  | VBool (b : bool)
  | VNum (n : Z)
  | VStr (s : string)
  | VArr (l : list value)
  | VObj (l : list (string * value)).

(** ToBoolean. *)
Definition truthy (v : value) : bool :=
  match v with
  | VUndefined | VNull => false
  | VBool b => b
  | VNum n => negb (n =? 0)
  | VStr s => negb (String.eqb s "")
  | VArr _ | VObj _ => true
  end.

(** [a || b]. *)
Definition js_or (a b : value) : value := if truthy a then a else b.

(** [v === s] for a string literal [s]. *)
Definition strict_eq_str (v : value) (s : string) : bool :=
  match v with
  | VStr s' => String.eqb s' s
  | _ => false
  end.

(** [hay.includes(needle)]. *)
Fixpoint includes (hay needle : string) : bool :=
  String.prefix needle hay ||
  match hay with
  | EmptyString => false
  | String _ hay' => includes hay' needle
  end.

(** ** Dates (ECMA-262, Date objects)

    Time values are milliseconds since the epoch, in UTC. *)
Module JSDate.

Definition msPerDay : Z := 86400000.

Definition Day (t : Z) : Z := t / msPerDay.

Definition DayFromYear (y : Z) : Z :=
  365 * (y - 1970) + (y - 1969) / 4 - (y - 1901) / 100 + (y - 1601) / 400.

Definition leap_year (y : Z) : bool :=
  (y mod 4 =? 0) && (negb (y mod 100 =? 0) || (y mod 400 =? 0)).

(** Day within the year of the first day of month [m] (0 = January). *)
Definition month_start (leap : bool) (m : Z) : Z :=
  let l := if leap then 1 else 0 in
  match m with
  | 0 => 0
  | 1 => 31
  | 2 => 59 + l
  | 3 => 90 + l
  | 4 => 120 + l
  | 5 => 151 + l
  | 6 => 181 + l
  | 7 => 212 + l
  | 8 => 243 + l
  | 9 => 273 + l
  | 10 => 304 + l
  | _ => 334 + l
  end.

Definition MakeDay (year month date : Z) : Z :=
  let ym := year + month / 12 in
  let mn := month mod 12 in
  DayFromYear ym + month_start (leap_year ym) mn + date - 1.

Definition MakeDate (day time : Z) : Z := day * msPerDay + time.

Definition digit (c : ascii) : option Z :=
  let n := Z.of_N (N_of_ascii c) in
  if (48 <=? n) && (n <=? 57) then Some (n - 48) else None.

(** [new Date(s)] for a date-only string [YYYY-MM-DD], the form in which the
    store hands out its [date] column: midnight UTC of that day, as Node
    computes it (month 01..12, day 01..31, a day past the end of the month
    running over into the next one).  [None] is the NaN time value of an
    Invalid Date.  The other string forms [Date] accepts are not part of
    the model: what is stated about the reading of a date is stated for
    dates that this function reads. *)
Definition parse (s : string) : option Z :=
  match list_ascii_of_string s with
  | [y1; y2; y3; y4; sep1; m1; m2; sep2; d1; d2] =>
      if Ascii.eqb sep1 "-" && Ascii.eqb sep2 "-" then
        a ← digit y1; b ← digit y2; c ← digit y3; d ← digit y4;
        e ← digit m1; f ← digit m2; g ← digit d1; h ← digit d2;
        let year := 1000 * a + 100 * b + 10 * c + d in
        let month := 10 * e + f in
        let day := 10 * g + h in
        if (1 <=? month) && (month <=? 12) && (1 <=? day) && (day <=? 31)
        then Some (MakeDate (MakeDay year (month - 1) day) 0)
        else None
      else None
  | _ => None
  end.

(** [new Date(s) >= new Date()], the clock reading [now]; a comparison with
    NaN is false. *)
Definition ge_now (s : string) (now : Z) : bool :=
  match parse s with
  | Some t => now <=? t
  | None => false
  end.

End JSDate.

(** ** Rows, request bodies, responses *)

(** A row of the [availability] table as the client returns it
    (snake_case columns). *)
Module Row.
Record t : Type := mk
  { date : string; status : value; message : value; time_slots : value }.
End Row.

(** [req.body] of the save request (camelCase wire names). *)
Module Body.
Record t : Type := mk
  { date : string; status : value; message : value; timeSlots : value }.
End Body.

(** The error object of a failed store call. *)
Module PostgrestError.
Record t : Type := mk
  { message : string; details : string; hint : string; code : string }.
End PostgrestError.

(** What a [throw] inside a handler's [try] block can carry. *)
Inductive exn : Type :=
  | StoreError (e : PostgrestError.t)
  | TypeError (msg : string).

Definition exn_message (x : exn) : string :=
  match x with
  | StoreError e => PostgrestError.message e
  | TypeError msg => msg
  end.

(** The awaited [{ data, error }] of a store call; [None] is [null]. *)
Record store_response (A : Type) : Type := mk_response
  { data : option A; error : option PostgrestError.t }.
Arguments mk_response {A} _ _.
Arguments data {A} _.
Arguments error {A} _.

(** An entry of the [days] object of the list response. *)
Record day_entry : Type := mk_day
  { de_status : value; de_message : value; de_timeSlots : value }.

Record next_available : Type := mk_next
  { na_date : string; na_timeSlots : value }.

(** The JSON bodies the handlers send. [lastUpdated] holds the time value
    that [toISOString] renders. *)
Inductive json_body : Type :=
  | ListBody (days : gmap string day_entry)
             (nextAvailable : option next_available) (lastUpdated : Z)
  | DayBody (date : string) (status message timeSlots : value)
  | SaveBody (success : bool) (payload : value)
  | DeleteBody (success : bool)
  | StatusBody (status : string)
  | StatusErrorBody (status : string) (error : string)
  | ErrorBody (error : string).

Record http_response : Type := mk_http
  { status_code : Z; body : json_body }.

(** [res.json(b)] without a preceding [res.status]. *)
Definition res_json (b : json_body) : http_response := mk_http 200 b.

(** Console output. *)
Inductive log_entry : Type :=
  | console_log (text : string)
  | console_error (prefix : string) (x : exn).

(** Server log and response of one request. *)
Definition outcome : Type := list log_entry * http_response.

(** The [catch] block shared by the four availability routes. *)
Definition catch_generic (prefix generic : string) (x : exn) : outcome :=
  ([console_error prefix x], mk_http 500 (ErrorBody generic)).

(** ** The handlers *)

(** [obj[key] = v] for an object [v], on an object [obj] that was created
    as [{}]; the map holds the own properties of [obj], which are what
    [res.json] sends.  Every key becomes an own property but "__proto__":
    that one is the accessor inherited from [Object.prototype], whose
    setter makes [v] the prototype of [obj] and adds no property. *)
Definition set_property {A : Type} (obj : gmap string A) (key : string)
    (v : A) : gmap string A :=
  if String.eqb key "__proto__" then obj else <[key := v]> obj.

(** Body of the [data.forEach] callback of the list route, on the pair
    [(days, nextAvailable)]. *)
Definition forEach_day (now : Z)
    (acc : gmap string day_entry * option next_available) (day : Row.t)
    : gmap string day_entry * option next_available :=
  let days :=
    set_property (fst acc) (Row.date day)
      (mk_day (Row.status day) (Row.message day) (Row.time_slots day)) in
  let nextAvailable :=
    if negb (bool_decide (is_Some (snd acc)))
       && strict_eq_str (Row.status day) "available"
       && JSDate.ge_now (Row.date day) now
    then Some (mk_next (Row.date day) (Row.time_slots day))
    else snd acc in
  (days, nextAvailable).

(** [GET /api/availability]. *)
Definition get_availability (now : Z) (resp : store_response (list Row.t))
    : outcome :=
  match error resp with
  | Some e =>
      catch_generic "Error fetching availability:"
        "Failed to fetch availability" (StoreError e)
  | None =>
      match data resp with
      | None =>
          catch_generic "Error fetching availability:"
            "Failed to fetch availability"
            (TypeError "Cannot read properties of null (reading 'forEach')")
      | Some rows =>
          let acc := fold_left (forEach_day now) rows (∅, None) in
          ([], res_json (ListBody (fst acc) (snd acc) now))
      end
  end.

(** [GET /api/availability/:date]; [date] is [req.params.date]. *)
Definition get_availability_date (date : string)
    (resp : store_response Row.t) : outcome :=
  let thrown :=
    match error resp with
    | Some e =>
        if negb (String.eqb (PostgrestError.code e) "PGRST116")
        then Some e else None
    | None => None
    end in
  match thrown with
  | Some e =>
      catch_generic "Error fetching date:" "Failed to fetch date"
        (StoreError e)
  | None =>
      match data resp with
      | None =>
          ([], res_json (DayBody date (VStr "available") VNull (VArr [])))
      | Some d =>
          ([], res_json (DayBody (Row.date d) (Row.status d) (Row.message d)
                           (js_or (Row.time_slots d) (VArr []))))
      end
  end.

(** The object handed to [upsert] by [POST /api/availability]. *)
Definition upsert_payload (b : Body.t) : Row.t :=
  Row.mk (Body.date b) (Body.status b) (Body.message b) (Body.timeSlots b).

(** [POST /api/availability], after the store call. *)
Definition post_availability (resp : store_response value) : outcome :=
  match error resp with
  | Some e =>
      catch_generic "Error saving availability:"
        "Failed to save availability" (StoreError e)
  | None => ([], res_json (SaveBody true (default VNull (data resp))))
  end.

(** [DELETE /api/availability/:date], after the store call. *)
Definition delete_availability_date (resp : store_response unit) : outcome :=
  match error resp with
  | Some e =>
      catch_generic "Error deleting availability:"
        "Failed to delete availability" (StoreError e)
  | None => ([], res_json (DeleteBody true))
  end.

(** [GET /api/status]. *)
Definition get_status (resp : store_response (list Row.t)) : outcome :=
  match error resp with
  | Some e =>
      (app
         (if includes (PostgrestError.message e) "does not exist"
          then [console_log "Table does not exist, would create it here"]
          else [])
         [console_error "Database connection error:" (StoreError e)],
       mk_http 500 (StatusErrorBody "disconnected" (exn_message (StoreError e))))
  | None => ([], res_json (StatusBody "connected"))
  end.

(** ** Server start-up *)

(** ToString, as a template literal applies it. *)
Fixpoint ToString (v : value) : string :=
  match v with
  | VUndefined => "undefined"
  | VNull => "null"
  | VBool b => if b then "true" else "false"
  | VNum n => pretty n
  | VStr s => s
  | VArr l =>
      (fix join (l : list value) : string :=
         match l with
         | [] => ""
         | x :: l' =>
             String.append
               match x with
               | VUndefined | VNull => ""
               | _ => ToString x
               end
               match l' with
               | [] => ""
               | _ :: _ => String.append "," (join l')
               end
         end) l
  | VObj _ => "[object Object]"
  end.

(** [const PORT = process.env.PORT || 3000]; [env_PORT] is the variable of
    the environment, [None] if it is not set. *)
Definition PORT (env_PORT : option string) : value :=
  js_or (from_option VStr VUndefined env_PORT) (VNum 3000).

(** An awaited store call: the promise resolves with [{ data, error }], or
    it rejects and the [await] throws. *)
Inductive awaited (A : Type) : Type :=
  | Resolved (resp : store_response A)
  | Rejected (x : exn).
Arguments Resolved {A} _.
Arguments Rejected {A} _.

(** [initializeDatabase()]: what it writes to the console, and the
    exception it ends with, if any. *)
Definition initializeDatabase (a : awaited (list Row.t))
    : list log_entry * option exn :=
  match a with
  | Rejected x => ([], Some x)
  | Resolved resp =>
      match error resp with
      | Some e =>
          if includes (PostgrestError.message e) "does not exist"
          then ([console_log "Creating database tables..."], None)
          else ([], None)
      | None => ([], None)
      end
  end.

(** The callback of [app.listen]: the console output of a server start. *)
Definition on_listen (env_PORT : option string) (a : awaited (list Row.t))
    : list log_entry :=
  let port := ToString (PORT env_PORT) in
  let init := initializeDatabase a in
  app
    [console_log (String.append "Server running on http://localhost:" port);
     console_log
       (String.append "Admin panel: http://localhost:"
          (String.append port "/admin"))]
    (app (fst init)
       match snd init with
       | None => [console_log "Database initialized"]
       | Some x => [console_error "Database initialization error:" x]
       end).

(** ** The store *)

Module Store.

(** Modelled from the spec: the columns [status], [message] and
    [time_slots] of a stored row of the table [availability]; the [date]
    column is the key. *)
Record columns : Type := mk
  { status : value; message : value; time_slots : value }.

(** Modelled from the spec: the table, in which [date] identifies at most
    one record. *)
Abbreviation table := (gmap string columns).

(** Modelled from the spec: the row the client returns for a stored
    record. *)
Definition row_of (d : string) (c : columns) : Row.t :=
  Row.mk d (status c) (message c) (time_slots c).

(** Modelled from the spec: a member that is [undefined] does not survive
    the JSON encoding of the payload, and its column holds null. *)
Definition to_column (v : value) : value :=
  match v with
  | VUndefined => VNull
  | _ => v
  end.

(** Modelled from the spec: the columns an upsert writes, all of them. *)
Definition columns_of (r : Row.t) : columns :=
  mk (to_column (Row.status r)) (to_column (Row.message r))
     (to_column (Row.time_slots r)).

(** Modelled from the spec: ascending order of the [date] column, dates
    being strings of the form [YYYY-MM-DD]. *)
Definition date_le (r1 r2 : Row.t) : Prop :=
  String.leb (Row.date r1) (Row.date r2) = true.

#[global] Instance date_le_dec : RelDecision date_le.
Proof. intros r1 r2. unfold date_le. apply _. Defined.

(** Modelled from the spec: all rows, ordered by [date] ascending. *)
Definition rows (t : table) : list Row.t :=
  merge_sort date_le (uncurry row_of <$> map_to_list t).

(** Modelled from the spec: the answer of a store call that hits a
    StoreFailure (connectivity, malformed query, schema mismatch). *)
Definition fails {A : Type} (e : PostgrestError.t) : store_response A :=
  mk_response None (Some e).

(** Modelled from the spec: the store's "row not found" answer to a
    single-row query. *)
Definition not_found : PostgrestError.t :=
  PostgrestError.mk "JSON object requested, multiple (or no) rows returned"
    "The result contains 0 rows" "" "PGRST116".

(** Modelled from the spec: [select('*').order('date', {ascending: true})].
    [fault] is the StoreFailure that strikes this call, if one does. *)
Definition select_order (fault : option PostgrestError.t) (t : table)
    : store_response (list Row.t) :=
  match fault with
  | Some e => fails e
  | None => mk_response (Some (rows t)) None
  end.

(** Modelled from the spec: [select('*').limit(1)]. *)
Definition select_limit1 (fault : option PostgrestError.t) (t : table)
    : store_response (list Row.t) :=
  match fault with
  | Some e => fails e
  | None => mk_response (Some (take 1 (rows t))) None
  end.

(** Modelled from the spec: [select('*').eq('date', d).single()]. *)
Definition select_eq_single (fault : option PostgrestError.t) (t : table)
    (d : string) : store_response Row.t :=
  match fault with
  | Some e => fails e
  | None =>
      match t !! d with
      | Some c => mk_response (Some (row_of d c)) None
      | None => mk_response None (Some not_found)
      end
  end.

(** Modelled from the spec: [upsert(r, {onConflict: 'date'})], insert if
    the date is absent and overwrite all fields if it is present; no rows
    are asked back. *)
Definition upsert (fault : option PostgrestError.t) (t : table) (r : Row.t)
    : table * store_response value :=
  match fault with
  | Some e => (t, fails e)
  | None => (<[Row.date r := columns_of r]> t, mk_response None None)
  end.

(** Modelled from the spec: [delete().eq('date', d)], which removes the
    row if there is one and is no error if there is none. *)
Definition delete_eq (fault : option PostgrestError.t) (t : table)
    (d : string) : table * store_response unit :=
  match fault with
  | Some e => (t, fails e)
  | None => (delete d t, mk_response None None)
  end.

End Store.

(** ** The routes, on the store *)

(** One request against the table [t]: the handler applied to the answer of
    its store call.  [now] is the clock at request time. *)
Definition GET_availability (fault : option PostgrestError.t) (now : Z)
    (t : Store.table) : outcome :=
  get_availability now (Store.select_order fault t).

Definition GET_availability_date (fault : option PostgrestError.t)
    (t : Store.table) (date : string) : outcome :=
  get_availability_date date (Store.select_eq_single fault t date).

Definition POST_availability (fault : option PostgrestError.t)
    (t : Store.table) (b : Body.t) : Store.table * outcome :=
  let r := Store.upsert fault t (upsert_payload b) in
  (fst r, post_availability (snd r)).

Definition DELETE_availability_date (fault : option PostgrestError.t)
    (t : Store.table) (date : string) : Store.table * outcome :=
  let r := Store.delete_eq fault t date in
  (fst r, delete_availability_date (snd r)).

Definition GET_status (fault : option PostgrestError.t) (t : Store.table)
    : outcome :=
  get_status (Store.select_limit1 fault t).

(** Accessors of the list response. *)
Definition response_days (o : outcome) : gmap string day_entry :=
  match body (snd o) with
  | ListBody days _ _ => days
  | _ => ∅
  end.

Definition response_nextAvailable (o : outcome) : option next_available :=
  match body (snd o) with
  | ListBody _ nextAvailable _ => nextAvailable
  | _ => None
  end.

(** ** Vocabulary of the statements *)

(** What one row contributes to [days] and, if it is chosen, to
    [nextAvailable]. *)
Definition entry_of (r : Row.t) : day_entry :=
  mk_day (Row.status r) (Row.message r) (Row.time_slots r).

Definition next_of (r : Row.t) : next_available :=
  mk_next (Row.date r) (Row.time_slots r).

(** The test of the loop that a row has to pass to become
    [nextAvailable]. *)
Definition eligible (now : Z) (r : Row.t) : bool :=
  strict_eq_str (Row.status r) "available" && JSDate.ge_now (Row.date r) now.

Definition put_day (m : gmap string day_entry) (r : Row.t)
    : gmap string day_entry :=
  set_property m (Row.date r) (entry_of r).

(** The default record of the single-date read. *)
Definition default_record (date : string) : json_body :=
  DayBody date (VStr "available") VNull (VArr []).

(** The specification's "date on or after the current date at request
    time": the day of the row is not before the day of the clock. *)
Definition on_or_after_current_date (now : Z) (date : string) : bool :=
  match JSDate.parse date with
  | Some t => JSDate.Day now <=? JSDate.Day t
  | None => false
  end.

(** The [days] entry of a stored record. *)
Definition stored_entry (c : Store.columns) : day_entry :=
  mk_day (Store.status c) (Store.message c) (Store.time_slots c).

(** The two ways a route ends: status 200 with nothing logged, or status
    500 with an error body and exactly one [console.error]. *)
Definition answered_or_failed (o : outcome) : Prop :=
  (fst o = [] ∧ status_code (snd o) = 200 ∧ ∀ msg, body (snd o) ≠ ErrorBody msg)
  ∨ (∃ prefix x msg,
       fst o = [console_error prefix x]
       ∧ snd o = mk_http 500 (ErrorBody msg)).

(** [needle] occurs in [hay]. *)
Definition occurs_in (needle hay : string) : Prop :=
  ∃ before after, hay = String.append before (String.append needle after).

(** ** Sample data *)

(** 2024-01-01T12:00:00.000Z. *)
Definition noon_2024_01_01 : Z := 1704110400000.

Definition open_2024_01_01 : Store.columns :=
  Store.mk (VStr "available") VNull (VArr [VStr "9am"]).

Definition open_2024_01_02 : Store.columns :=
  Store.mk (VStr "available") VNull (VArr [VStr "10am"]).

Definition two_open_days : Store.table :=
  <["2024-01-02" := open_2024_01_02]> (<["2024-01-01" := open_2024_01_01]> ∅).

(** The scenario of the specification: an open day followed by a closed
    one. *)
Definition open_then_closed : Store.table :=
  <["2024-01-02" := Store.mk (VStr "unavailable") (VStr "closed") (VArr [])]>
    (<["2024-01-01" := open_2024_01_01]> ∅).

(** 2024-01-01T00:00:00.000Z. *)
Definition midnight_2024_01_01 : Z := 1704067200000.

(** 2024-01-05T12:00:00.000Z. *)
Definition noon_2024_01_05 : Z := 1704456000000.

(** A day that is open but has no slot data. *)
Definition open_without_slots : Store.table :=
  <["2024-01-02" := Store.mk (VStr "available") VNull VNull]> ∅.

Definition auth_failure : PostgrestError.t :=
  PostgrestError.mk "password authentication failed for user postgres"
    "" "" "28P01".

(** An answer of the store with a past day, a closed day and two open
    days, the date 2024-01-03 occurring twice. *)
Definition mixed_rows : list Row.t :=
  [Row.mk "2023-12-31" (VStr "available") VNull (VArr [VStr "8am"]);
   Row.mk "2024-01-03" (VStr "unavailable") (VStr "closed") (VArr []);
   Row.mk "2024-01-03" (VStr "available") VNull (VArr [VStr "9am"]);
   Row.mk "2024-01-04" (VStr "available") VNull (VArr [VStr "10am"])].

Definition missing_table : PostgrestError.t :=
  PostgrestError.mk "relation public.availability does not exist"
    "" "" "42P01".

(** A request body that closes 2024-01-02. *)
Definition closing_2024_01_02 : Body.t :=
  Body.mk "2024-01-02" (VStr "unavailable") (VStr "closed") (VArr []).

(** A request body that opens 2024-01-05. *)
Definition opening_2024_01_05 : Body.t :=
  Body.mk "2024-01-05" (VStr "available") VNull (VArr [VStr "11am"]).

(** ** Assignment to a property *)

Lemma set_property_same {A : Type} (obj : gmap string A) key (v : A) :
  key ≠ "__proto__" → set_property obj key v !! key = Some v.
Proof.
  intros Hkey. unfold set_property.
  apply String.eqb_neq in Hkey as ->. apply lookup_insert_eq.
Qed.

Lemma set_property_other {A : Type} (obj : gmap string A) key (v : A) k :
  key ≠ k → set_property obj key v !! k = obj !! k.
Proof.
  intros Hne. unfold set_property.
  destruct (String.eqb key "__proto__"); [done|]. by apply lookup_insert_ne.
Qed.

Lemma set_property_proto {A : Type} (obj : gmap string A) key (v : A) :
  set_property obj key v !! "__proto__" = obj !! "__proto__".
Proof.
  unfold set_property. destruct (String.eqb key "__proto__") eqn:Hkey; [done|].
  apply String.eqb_neq in Hkey. by apply lookup_insert_ne.
Qed.

(** A date that [new Date] reads at all is not the key "__proto__". *)
Lemma ge_now_not_proto (d : string) (now : Z) :
  JSDate.ge_now d now = true → d ≠ "__proto__".
Proof. by intros H ->. Qed.

(** ** The loop of the list route *)

Section forEach.
Variable now : Z.

Lemma forEach_days rows acc :
  fst (fold_left (forEach_day now) rows acc) = fold_left put_day rows (fst acc).
Proof.
  revert acc. induction rows as [|r rows IH]; intros acc; simpl; [done|].
  by rewrite IH.
Qed.

Lemma forEach_next rows acc :
  snd (fold_left (forEach_day now) rows acc) =
  match snd acc with
  | Some na => Some na
  | None => next_of <$> find (eligible now) rows
  end.
Proof.
  revert acc. induction rows as [|r rows IH]; intros [m na]; simpl.
  - by destruct na.
  - rewrite IH. simpl. destruct na as [na|]; simpl; [done|].
    fold (eligible now r). by destruct (eligible now r).
Qed.

Lemma put_day_other rows m d :
  d ∉ Row.date <$> rows → fold_left put_day rows m !! d = m !! d.
Proof.
  revert m. induction rows as [|r rows IH]; intros m Hd; simpl; [done|].
  rewrite fmap_cons, not_elem_of_cons in Hd. destruct Hd as [Hne Hd].
  rewrite IH by done. by apply set_property_other.
Qed.

Lemma put_day_lookup rows m r :
  NoDup (Row.date <$> rows) → r ∈ rows → Row.date r ≠ "__proto__" →
  fold_left put_day rows m !! Row.date r = Some (entry_of r).
Proof.
  revert m. induction rows as [|x rows IH]; intros m Hnd Hin Hkey; simpl.
  - by apply elem_of_nil in Hin.
  - rewrite fmap_cons, NoDup_cons in Hnd. destruct Hnd as [Hx Hnd].
    apply elem_of_cons in Hin as [->|Hin]; [|by apply IH].
    rewrite put_day_other by done. by apply set_property_same.
Qed.

Lemma put_day_proto rows m :
  fold_left put_day rows m !! "__proto__" = m !! "__proto__".
Proof.
  revert m. induction rows as [|x rows IH]; intros m; simpl; [done|].
  rewrite IH. apply set_property_proto.
Qed.

Lemma eligible_available r :
  eligible now r = true → Row.status r = VStr "available".
Proof.
  unfold eligible, strict_eq_str. intros H.
  apply andb_prop in H as [H _].
  destruct (Row.status r); try discriminate.
  by apply String.eqb_eq in H as ->.
Qed.

Lemma eligible_time r :
  eligible now r = true →
  ∃ t, JSDate.parse (Row.date r) = Some t ∧ now ≤ t.
Proof.
  unfold eligible, JSDate.ge_now. intros H.
  apply andb_prop in H as [_ H].
  destruct (JSDate.parse (Row.date r)) as [t|]; [|discriminate].
  exists t. split; [done|]. by apply Z.leb_le.
Qed.

(** The response of the list route to rows the store did return. *)
Lemma get_availability_rows rows :
  get_availability now (mk_response (Some rows) None) =
  ([], res_json (ListBody (fold_left put_day rows ∅)
                   (next_of <$> find (eligible now) rows) now)).
Proof.
  unfold get_availability. simpl.
  by rewrite forEach_days, forEach_next.
Qed.

End forEach.

(** ** The rows of the table *)

Lemma rows_Permutation (t : Store.table) :
  Store.rows t ≡ₚ uncurry Store.row_of <$> map_to_list t.
Proof. apply merge_sort_Permutation. Qed.

Lemma elem_of_rows (t : Store.table) (r : Row.t) :
  r ∈ Store.rows t ↔ ∃ c, t !! Row.date r = Some c ∧ r = Store.row_of (Row.date r) c.
Proof.
  rewrite rows_Permutation, list_elem_of_fmap. split.
  - intros ([d c] & -> & Hin). apply elem_of_map_to_list in Hin.
    exists c. by simpl.
  - intros (c & Hc & Hr). exists (Row.date r, c). split; [done|].
    by apply elem_of_map_to_list.
Qed.

Lemma row_of_elem_of_rows (t : Store.table) d c :
  t !! d = Some c → Store.row_of d c ∈ Store.rows t.
Proof. intros H. apply elem_of_rows. exists c. by simpl. Qed.

Lemma NoDup_rows_date (t : Store.table) : NoDup (Row.date <$> Store.rows t).
Proof.
  rewrite rows_Permutation.
  assert (∀ l : list (string * Store.columns),
            Row.date <$> (uncurry Store.row_of <$> l) = l.*1) as ->.
  { intros l. induction l as [|[d c] l IH]; csimpl; [done|by f_equal]. }
  apply NoDup_fst_map_to_list.
Qed.

(** The [days] object of the list response holds exactly the stored
    records, column for column, but for a record stored under the date
    "__proto__", which gets no entry. *)
Lemma list_days (now : Z) (t : Store.table) :
  response_days (GET_availability None now t) =
  stored_entry <$> delete "__proto__" t.
Proof.
  unfold GET_availability, Store.select_order.
  rewrite get_availability_rows. unfold response_days; simpl.
  apply map_eq. intros d. rewrite lookup_fmap.
  destruct (decide (d = "__proto__")) as [->|Hkey].
  { by rewrite put_day_proto, lookup_delete_eq. }
  rewrite lookup_delete_ne by done.
  destruct (t !! d) as [c|] eqn:Hd; simpl.
  - apply (put_day_lookup _ _ (Store.row_of d c)).
    + apply NoDup_rows_date.
    + by apply row_of_elem_of_rows.
    + done.
  - rewrite put_day_other; [done|].
    intros (r & -> & Hr)%list_elem_of_fmap.
    apply elem_of_rows in Hr as (c & Hc & _). congruence.
Qed.

Lemma list_days_lookup (now : Z) (t : Store.table) (d : string) :
  d ≠ "__proto__" →
  response_days (GET_availability None now t) !! d = stored_entry <$> t !! d.
Proof.
  intros Hkey. by rewrite list_days, lookup_fmap, lookup_delete_ne.
Qed.

(** [nextAvailable] of the list response is taken from the first row, in
    the order of the store's answer, that passes the test of the loop. *)
Lemma list_nextAvailable (now : Z) (t : Store.table) :
  response_nextAvailable (GET_availability None now t) =
  next_of <$> find (eligible now) (Store.rows t).
Proof.
  unfold GET_availability, Store.select_order.
  by rewrite get_availability_rows.
Qed.

(** The row behind a non-null [nextAvailable]. *)
Lemma list_nextAvailable_stored (now : Z) (t : Store.table) na :
  response_nextAvailable (GET_availability None now t) = Some na →
  ∃ c, t !! na_date na = Some c
       ∧ Store.status c = VStr "available"
       ∧ na_timeSlots na = Store.time_slots c
       ∧ JSDate.ge_now (na_date na) now = true.
Proof.
  rewrite list_nextAvailable. intros H.
  destruct (find (eligible now) (Store.rows t)) as [r|] eqn:Hf; [|done].
  injection H as <-. apply find_some in Hf as [Hin Hel].
  apply list_elem_of_In, elem_of_rows in Hin as (c & Hc & Hr).
  exists c. simpl. split; [done|].
  pose proof (eligible_available _ _ Hel) as Hst.
  apply andb_prop in Hel as [_ Hge].
  rewrite Hr in Hst |- *. simpl in *. done.
Qed.

(** The single-date read of a stored record, and of a date that has
    none. *)
Lemma read_stored (t : Store.table) d c :
  t !! d = Some c →
  GET_availability_date None t d =
  ([], res_json (DayBody d (Store.status c) (Store.message c)
                   (js_or (Store.time_slots c) (VArr [])))).
Proof.
  intros H. unfold GET_availability_date, Store.select_eq_single.
  by rewrite H.
Qed.

Lemma read_absent (t : Store.table) d :
  t !! d = None →
  GET_availability_date None t d = ([], res_json (default_record d)).
Proof.
  intros H. unfold GET_availability_date, Store.select_eq_single.
  by rewrite H.
Qed.

(** ** Ascending order of the dates *)

Lemma string_leb_trans (s1 s2 s3 : string) :
  String.leb s1 s2 = true → String.leb s2 s3 = true → String.leb s1 s3 = true.
Proof.
  unfold String.leb. revert s2 s3.
  induction s1 as [|a s1 IH]; intros [|b s2] [|c s3]; simpl; try done.
  unfold Ascii.compare.
  destruct (N.compare_spec (N_of_ascii a) (N_of_ascii b));
    destruct (N.compare_spec (N_of_ascii b) (N_of_ascii c));
    destruct (N.compare_spec (N_of_ascii a) (N_of_ascii c));
    try done; try lia.
  apply IH.
Qed.

Lemma string_leb_refl (s : string) : String.leb s s = true.
Proof. by destruct (String.leb_total s s). Qed.

#[global] Instance date_le_total : Total Store.date_le.
Proof. intros r1 r2. apply String.leb_total. Qed.

#[global] Instance date_le_trans : Transitive Store.date_le.
Proof. intros r1 r2 r3. apply string_leb_trans. Qed.

Lemma rows_ascending (t : Store.table) :
  StronglySorted Store.date_le (Store.rows t).
Proof. apply StronglySorted_merge_sort; apply _. Qed.

(** [find] returns the first element that passes the test. *)
Lemma find_first {A : Type} (P : A → bool) (l : list A) (x : A) :
  find P l = Some x →
  ∃ l1 l2, l = app l1 (x :: l2) ∧ Forall (λ y, P y = false) l1 ∧ P x = true.
Proof.
  induction l as [|y l IH]; simpl; [done|].
  destruct (P y) eqn:Hy.
  - intros [= ->]. by exists [], l.
  - intros (l1 & l2 & -> & Hl1 & Hx)%IH.
    exists (y :: l1), l2. split; [done|]. split; [by constructor|done].
Qed.

(** ** What the list route chooses *)

(** A row that passes the test of the loop lies on or after the current
    date; C1 shows that the converse fails. *)
Lemma eligible_on_or_after (now : Z) (r : Row.t) :
  eligible now r = true → on_or_after_current_date now (Row.date r) = true.
Proof.
  intros (tm & Hp & Hle)%eligible_time. unfold on_or_after_current_date.
  rewrite Hp. apply Z.leb_le. unfold JSDate.Day.
  apply Z.div_le_mono; [done|exact Hle].
Qed.

(** A non-null [nextAvailable] is the earliest of the stored rows that pass
    the test of the loop: status "available" and midnight (UTC) of the date
    not before the clock. *)
Lemma nextAvailable_earliest_eligible (now : Z) (t : Store.table) na d c :
  response_nextAvailable (GET_availability None now t) = Some na →
  t !! d = Some c →
  eligible now (Store.row_of d c) = true →
  String.leb (na_date na) d = true.
Proof.
  rewrite list_nextAvailable. intros Hna Hd Hel.
  destruct (find (eligible now) (Store.rows t)) as [r|] eqn:Hf; [|done].
  injection Hna as <-. simpl.
  apply find_first in Hf as (l1 & l2 & Hrows & Hl1 & _).
  pose proof (row_of_elem_of_rows _ _ _ Hd) as Hin.
  pose proof (rows_ascending t) as Hsorted.
  rewrite Hrows in Hin, Hsorted.
  apply elem_of_app in Hin as [Hin|Hin].
  - rewrite Forall_forall in Hl1. apply Hl1 in Hin. congruence.
  - apply StronglySorted_app_1_r, StronglySorted_inv in Hsorted as [_ Hl2].
    apply elem_of_cons in Hin as [<-|Hin]; [apply string_leb_refl|].
    rewrite Forall_forall in Hl2. by apply Hl2 in Hin.
Qed.

(** [nextAvailable] is null exactly when no stored row passes the test of
    the loop. *)
Lemma nextAvailable_null (now : Z) (t : Store.table) :
  response_nextAvailable (GET_availability None now t) = None ↔
  ∀ d c, t !! d = Some c → eligible now (Store.row_of d c) = false.
Proof.
  rewrite list_nextAvailable. split.
  - intros Hnone d c Hd.
    destruct (find (eligible now) (Store.rows t)) eqn:Hf; [done|].
    apply (find_none _ _ Hf), list_elem_of_In. by apply row_of_elem_of_rows.
  - intros Hall.
    destruct (find (eligible now) (Store.rows t)) as [r|] eqn:Hf; [|done].
    apply find_some in Hf as [Hin Hel].
    apply list_elem_of_In, elem_of_rows in Hin as (c & Hc & Hr).
    rewrite Hr, (Hall _ _ Hc) in Hel. done.
Qed.

(** The scenario of the specification: the open day is chosen up to
    midnight (UTC) at its start, and no day is chosen from then on. *)
Example scenario_nextAvailable :
  response_nextAvailable
    (GET_availability None midnight_2024_01_01 open_then_closed)
  = Some (mk_next "2024-01-01" (VArr [VStr "9am"]))
  ∧ response_nextAvailable
      (GET_availability None (midnight_2024_01_01 + 1) open_then_closed)
    = None.
Proof. split; vm_compute; reflexivity. Qed.

(** The single-date handler reads every answer without a row as "not
    found", whether the store reports it as error PGRST116 or not. *)
Lemma get_availability_date_no_row (date : string) (resp : store_response Row.t) :
  data resp = None →
  (error resp = None ∨
   ∃ e, error resp = Some e ∧ PostgrestError.code e = "PGRST116") →
  get_availability_date date resp = ([], res_json (default_record date)).
Proof.
  intros Hdata Herr. unfold get_availability_date. rewrite Hdata.
  destruct Herr as [-> | (e & -> & Hcode)]; [done|].
  by rewrite Hcode.
Qed.

(** ** The properties of the specification *)

(** C1. The list route does not pick the earliest open day on or after the
    current date.  With open days stored for 2024-01-01 and 2024-01-02 and
    a request at noon (UTC) of 2024-01-01, the store hands over both rows
    in ascending order and the loop passes over the row of the current day:
    it compares midnight of the row's date with the clock, so
    [nextAvailable] is the row of 2024-01-02, although the row of
    2024-01-01 is stored, has status "available", lies on the current date
    and is the earlier of the two. *)
Theorem C1_row_of_today_passed_over :
  Store.rows two_open_days =
    [Row.mk "2024-01-01" (VStr "available") VNull (VArr [VStr "9am"]);
     Row.mk "2024-01-02" (VStr "available") VNull (VArr [VStr "10am"])]
  ∧ response_nextAvailable (GET_availability None noon_2024_01_01 two_open_days)
    = Some (mk_next "2024-01-02" (VArr [VStr "10am"]))
  ∧ two_open_days !! "2024-01-01" = Some open_2024_01_01
  ∧ Store.status open_2024_01_01 = VStr "available"
  ∧ on_or_after_current_date noon_2024_01_01 "2024-01-01" = true
  ∧ String.ltb "2024-01-01" "2024-01-02" = true.
Proof. repeat split; vm_compute; reflexivity. Qed.

(** C2. The single-date read of a date that has no stored row answers with
    success (status 200, nothing logged) and the default record: the
    requested date, status "available", message null and no time slots. *)
Theorem C2_absent_date_reads_default (t : Store.table) (d : string) :
  t !! d = None →
  GET_availability_date None t d =
  ([], mk_http 200 (DayBody d (VStr "available") VNull (VArr []))).
Proof. apply read_absent. Qed.

Lemma C2_absent_date_reads_default_witness :
  two_open_days !! "2024-01-03" = None
  ∧ GET_availability_date None two_open_days "2024-01-03" =
    ([], mk_http 200 (DayBody "2024-01-03" (VStr "available") VNull (VArr []))).
Proof.
  split; [reflexivity|].
  apply (C2_absent_date_reads_default two_open_days "2024-01-03").
  reflexivity.
Defined.

(** C3. Saving is idempotent: a second save of the same body leaves the
    table, and the response, as the first one did.  The save is keyed on
    the date: afterwards the record of that date holds the columns of the
    body, whether or not the date was stored before, and every other
    record is as it was. *)
Theorem C3_save_idempotent (t : Store.table) (b : Body.t) :
  let once := POST_availability None t b in
  let twice := POST_availability None (fst once) b in
  fst twice = fst once
  ∧ snd twice = snd once
  ∧ fst once !! Body.date b = Some (Store.columns_of (upsert_payload b))
  ∧ delete (Body.date b) (fst once) = delete (Body.date b) t.
Proof.
  unfold POST_availability, Store.upsert; simpl.
  repeat split.
  - apply insert_insert_eq.
  - apply lookup_insert_eq.
  - apply delete_insert_eq.
Qed.

(** C4, as stated, fails for the status probe: on a store failure it
    answers with status 500 and puts the message of the underlying error
    into the body. *)
Lemma C4_status_probe_shows_error_detail :
  PostgrestError.code auth_failure ≠ "PGRST116"
  ∧ snd (get_status (mk_response None (Some auth_failure))) =
    mk_http 500
      (StatusErrorBody "disconnected"
         "password authentication failed for user postgres").
Proof. split; [discriminate|reflexivity]. Qed.

(** C4, amended. On a store failure (a store error other than row not
    found) each of the four availability routes, list, single-date read,
    save and delete, logs the error object and answers with status 500 and
    the fixed message of the route, whatever the error holds.  The status
    probe logs the error object too and answers with status 500, status
    "disconnected" and the message of the error. *)
Theorem C4_store_failure_response (e : PostgrestError.t) :
  PostgrestError.code e ≠ "PGRST116" →
  (∀ now rows,
     get_availability now (mk_response rows (Some e)) =
     ([console_error "Error fetching availability:" (StoreError e)],
      mk_http 500 (ErrorBody "Failed to fetch availability")))
  ∧ (∀ date row,
       get_availability_date date (mk_response row (Some e)) =
       ([console_error "Error fetching date:" (StoreError e)],
        mk_http 500 (ErrorBody "Failed to fetch date")))
  ∧ (∀ payload,
       post_availability (mk_response payload (Some e)) =
       ([console_error "Error saving availability:" (StoreError e)],
        mk_http 500 (ErrorBody "Failed to save availability")))
  ∧ (∀ nothing,
       delete_availability_date (mk_response nothing (Some e)) =
       ([console_error "Error deleting availability:" (StoreError e)],
        mk_http 500 (ErrorBody "Failed to delete availability")))
  ∧ (∀ rows, ∃ before,
       get_status (mk_response rows (Some e)) =
       (app before [console_error "Database connection error:" (StoreError e)],
        mk_http 500
          (StatusErrorBody "disconnected" (PostgrestError.message e)))).
Proof.
  intros Hcode. repeat split; try done.
  - intros date row. unfold get_availability_date; simpl.
    apply String.eqb_neq in Hcode. by rewrite Hcode.
  - intros rows. unfold get_status; simpl. eauto.
Qed.

Lemma C4_store_failure_response_witness :
  PostgrestError.code auth_failure ≠ "PGRST116"
  ∧ GET_availability (Some auth_failure) noon_2024_01_01 two_open_days =
    ([console_error "Error fetching availability:" (StoreError auth_failure)],
     mk_http 500 (ErrorBody "Failed to fetch availability"))
  ∧ GET_availability_date (Some auth_failure) two_open_days "2024-01-01" =
    ([console_error "Error fetching date:" (StoreError auth_failure)],
     mk_http 500 (ErrorBody "Failed to fetch date")).
Proof.
  assert (PostgrestError.code auth_failure ≠ "PGRST116") as Hcode
    by discriminate.
  split; [exact Hcode|].
  destruct (C4_store_failure_response auth_failure Hcode)
    as (Hlist & Hdate & _).
  split; [apply Hlist|apply Hdate].
Defined.

(** C5. The single-date read of a stored row answers with the date, the
    status and the message of the row, and with its slot sequence if the
    row has one; slot data that is null or missing comes back as the empty
    sequence. *)
Theorem C5_stored_date_read (t : Store.table) (d : string) (c : Store.columns) :
  t !! d = Some c →
  (∀ slots, Store.time_slots c = VArr slots →
     GET_availability_date None t d =
     ([], mk_http 200
            (DayBody d (Store.status c) (Store.message c) (VArr slots))))
  ∧ (Store.time_slots c = VNull ∨ Store.time_slots c = VUndefined →
     GET_availability_date None t d =
     ([], mk_http 200 (DayBody d (Store.status c) (Store.message c) (VArr [])))).
Proof.
  intros Hd. rewrite (read_stored _ _ _ Hd). split.
  - by intros slots ->.
  - by intros [-> | ->].
Qed.

Lemma C5_stored_date_read_witness :
  two_open_days !! "2024-01-01" = Some open_2024_01_01
  ∧ GET_availability_date None two_open_days "2024-01-01" =
    ([], mk_http 200
           (DayBody "2024-01-01" (VStr "available") VNull (VArr [VStr "9am"])))
  ∧ GET_availability_date None open_without_slots "2024-01-02" =
    ([], mk_http 200 (DayBody "2024-01-02" (VStr "available") VNull (VArr []))).
Proof.
  split; [reflexivity|]. split.
  - apply (C5_stored_date_read two_open_days "2024-01-01" open_2024_01_01);
      reflexivity.
  - apply (C5_stored_date_read open_without_slots "2024-01-02"
             (Store.mk (VStr "available") VNull VNull)); [reflexivity|].
    left. reflexivity.
Defined.

(** C6. Field names are translated in both directions and no field is
    lost.  The save route hands the body's [date], [status], [message] and
    [timeSlots] to the store as the columns [date], [status], [message] and
    [time_slots]; once saved, the record holds them, the list route shows
    them under [status], [message] and [timeSlots] in the entry of that
    date, and the single-date read returns them under [date], [status],
    [message] and [timeSlots] (slot data that is falsy being read as the
    empty sequence, see C5).  The date is any string but "__proto__", the
    one key that an assignment to [days] does not turn into an entry. *)
Theorem C6_field_names_translated (t : Store.table) (b : Body.t) (now : Z) :
  Body.date b ≠ "__proto__" →
  let t' := fst (POST_availability None t b) in
  let status := Store.to_column (Body.status b) in
  let message := Store.to_column (Body.message b) in
  let slots := Store.to_column (Body.timeSlots b) in
  upsert_payload b =
    Row.mk (Body.date b) (Body.status b) (Body.message b) (Body.timeSlots b)
  ∧ t' !! Body.date b = Some (Store.mk status message slots)
  ∧ response_days (GET_availability None now t') !! Body.date b =
    Some (mk_day status message slots)
  ∧ GET_availability_date None t' (Body.date b) =
    ([], mk_http 200
           (DayBody (Body.date b) status message (js_or slots (VArr [])))).
Proof.
  intros Hkey t' status message slots.
  assert (t' !! Body.date b = Some (Store.mk status message slots)) as Hsaved.
  { unfold t', POST_availability, Store.upsert; simpl. apply lookup_insert_eq. }
  repeat split.
  - exact Hsaved.
  - by rewrite list_days_lookup, Hsaved.
  - by rewrite (read_stored _ _ _ Hsaved).
Qed.

Lemma C6_field_names_translated_witness :
  Body.date closing_2024_01_02 ≠ "__proto__"
  ∧ fst (POST_availability None two_open_days closing_2024_01_02)
      !! "2024-01-02" =
    Some (Store.mk (VStr "unavailable") (VStr "closed") (VArr []))
  ∧ response_days
      (GET_availability None noon_2024_01_01
         (fst (POST_availability None two_open_days closing_2024_01_02)))
      !! "2024-01-02" =
    Some (mk_day (VStr "unavailable") (VStr "closed") (VArr []))
  ∧ GET_availability_date None
      (fst (POST_availability None two_open_days closing_2024_01_02))
      "2024-01-02" =
    ([], mk_http 200
           (DayBody "2024-01-02" (VStr "unavailable") (VStr "closed")
              (VArr []))).
Proof.
  assert (Body.date closing_2024_01_02 ≠ "__proto__") as Hkey by discriminate.
  split; [exact Hkey|].
  destruct (C6_field_names_translated two_open_days closing_2024_01_02
              noon_2024_01_01 Hkey) as (_ & Hsaved & Hdays & Hread).
  split; [exact Hsaved|]. split; [exact Hdays|exact Hread].
Defined.

(** C7. Deleting a date that has no stored row is no error: the response
    is [{success: true}] with status 200, nothing is logged and the table
    is as it was. *)
Theorem C7_delete_absent_date (t : Store.table) (d : string) :
  t !! d = None →
  DELETE_availability_date None t d = (t, ([], mk_http 200 (DeleteBody true))).
Proof.
  intros Hd. unfold DELETE_availability_date, Store.delete_eq; simpl.
  by rewrite delete_id.
Qed.

Lemma C7_delete_absent_date_witness :
  two_open_days !! "2024-01-03" = None
  ∧ DELETE_availability_date None two_open_days "2024-01-03" =
    (two_open_days, ([], mk_http 200 (DeleteBody true))).
Proof.
  split; [reflexivity|].
  apply (C7_delete_absent_date two_open_days "2024-01-03"). reflexivity.
Defined.

(** C8. After a delete of a date that succeeded (status 200), whatever the
    table held, the single-date read of that date returns the default
    record. *)
Theorem C8_read_after_delete (fault : option PostgrestError.t)
    (t : Store.table) (d : string) :
  status_code (snd (snd (DELETE_availability_date fault t d))) = 200 →
  GET_availability_date None (fst (DELETE_availability_date fault t d)) d =
  ([], mk_http 200 (DayBody d (VStr "available") VNull (VArr []))).
Proof.
  destruct fault as [e|]; simpl; [discriminate|]. intros _.
  apply read_absent, lookup_delete_eq.
Qed.

Lemma C8_read_after_delete_witness :
  status_code
    (snd (snd (DELETE_availability_date None two_open_days "2024-01-01"))) = 200
  ∧ GET_availability_date None
      (fst (DELETE_availability_date None two_open_days "2024-01-01"))
      "2024-01-01" =
    ([], mk_http 200 (DayBody "2024-01-01" (VStr "available") VNull (VArr []))).
Proof.
  split; [reflexivity|].
  apply (C8_read_after_delete None two_open_days "2024-01-01"). reflexivity.
Defined.

(** C9. The list route passes stored slot data on as it is, whatever it
    is: the entry in [days] of a stored date carries the status, the
    message and the [time_slots] of its row unchanged, and so does
    [nextAvailable] if that row is the one chosen.  For a stored row whose
    [time_slots] is null the entry therefore has [timeSlots] null, and so
    has [nextAvailable], whereas the single-date read of the same date
    returns the empty sequence.  The date is any string but "__proto__",
    the one key that an assignment to [days] does not turn into an
    entry. *)
Theorem C9_list_passes_slots_verbatim (now : Z) (t : Store.table) (d : string)
    (c : Store.columns) :
  t !! d = Some c →
  d ≠ "__proto__" →
  response_days (GET_availability None now t) !! d =
    Some (mk_day (Store.status c) (Store.message c) (Store.time_slots c))
  ∧ (∀ na, response_nextAvailable (GET_availability None now t) = Some na →
           na_date na = d → na_timeSlots na = Store.time_slots c)
  ∧ (Store.time_slots c = VNull →
     response_days (GET_availability None now t) !! d =
       Some (mk_day (Store.status c) (Store.message c) VNull)
     ∧ (∀ na, response_nextAvailable (GET_availability None now t) = Some na →
              na_date na = d → na_timeSlots na = VNull)
     ∧ GET_availability_date None t d =
       ([], mk_http 200
              (DayBody d (Store.status c) (Store.message c) (VArr [])))).
Proof.
  intros Hd Hkey.
  assert (response_days (GET_availability None now t) !! d =
          Some (mk_day (Store.status c) (Store.message c) (Store.time_slots c)))
    as Hdays.
  { by rewrite list_days_lookup, Hd. }
  assert (∀ na, response_nextAvailable (GET_availability None now t) = Some na →
                na_date na = d → na_timeSlots na = Store.time_slots c)
    as Hnext.
  { intros na Hna Hdate.
    apply list_nextAvailable_stored in Hna as (c' & Hc' & _ & -> & _).
    rewrite Hdate, Hd in Hc'. by injection Hc' as <-. }
  split; [exact Hdays|]. split; [exact Hnext|].
  intros Hnull. rewrite Hnull in Hdays, Hnext. repeat split; try done.
  rewrite (read_stored _ _ _ Hd). by rewrite Hnull.
Qed.

Lemma C9_list_passes_slots_verbatim_witness :
  open_without_slots !! "2024-01-02" = Some (Store.mk (VStr "available") VNull VNull)
  ∧ "2024-01-02" ≠ "__proto__"
  ∧ response_nextAvailable (GET_availability None noon_2024_01_01 open_without_slots)
    = Some (mk_next "2024-01-02" VNull)
  ∧ response_days (GET_availability None noon_2024_01_01 open_without_slots)
      !! "2024-01-02" = Some (mk_day (VStr "available") VNull VNull)
  ∧ GET_availability_date None open_without_slots "2024-01-02" =
    ([], mk_http 200 (DayBody "2024-01-02" (VStr "available") VNull (VArr [])))
  ∧ response_days (GET_availability None noon_2024_01_01 two_open_days)
      !! "2024-01-02" =
    Some (mk_day (VStr "available") VNull (VArr [VStr "10am"]))
  ∧ (∀ na,
       response_nextAvailable
         (GET_availability None noon_2024_01_01 two_open_days) = Some na →
       na_date na = "2024-01-02" → na_timeSlots na = VArr [VStr "10am"]).
Proof.
  assert ("2024-01-02" ≠ "__proto__") as Hkey by discriminate.
  split; [reflexivity|]. split; [exact Hkey|].
  split; [vm_compute; reflexivity|].
  destruct (C9_list_passes_slots_verbatim noon_2024_01_01 open_without_slots
              "2024-01-02" (Store.mk (VStr "available") VNull VNull)
              eq_refl Hkey) as (_ & _ & Hnull).
  destruct (Hnull eq_refl) as (Hdays & _ & Hread).
  split; [exact Hdays|]. split; [exact Hread|].
  destruct (C9_list_passes_slots_verbatim noon_2024_01_01 two_open_days
              "2024-01-02" open_2024_01_02 eq_refl Hkey) as (Hdays' & Hnext & _).
  split; [exact Hdays'|exact Hnext].
Defined.

(** C10. The list response is consistent with itself: if [nextAvailable]
    is not null, its date is a key of [days], the entry of that date has
    status "available", and the time slots of the two are the same. *)
Theorem C10_nextAvailable_among_days (now : Z) (t : Store.table)
    (na : next_available) :
  response_nextAvailable (GET_availability None now t) = Some na →
  ∃ entry,
    response_days (GET_availability None now t) !! na_date na = Some entry
    ∧ de_status entry = VStr "available"
    ∧ de_timeSlots entry = na_timeSlots na.
Proof.
  intros Hna.
  apply list_nextAvailable_stored in Hna as (c & Hc & Hst & Hslots & Hge).
  exists (stored_entry c).
  rewrite list_days_lookup, Hc by exact (ge_now_not_proto _ _ Hge).
  by repeat split.
Qed.

Lemma C10_nextAvailable_among_days_witness :
  response_nextAvailable (GET_availability None noon_2024_01_01 two_open_days)
    = Some (mk_next "2024-01-02" (VArr [VStr "10am"]))
  ∧ ∃ entry,
      response_days (GET_availability None noon_2024_01_01 two_open_days)
        !! "2024-01-02" = Some entry
      ∧ de_status entry = VStr "available"
      ∧ de_timeSlots entry = VArr [VStr "10am"].
Proof.
  assert (response_nextAvailable
            (GET_availability None noon_2024_01_01 two_open_days)
          = Some (mk_next "2024-01-02" (VArr [VStr "10am"]))) as Hna
    by (vm_compute; reflexivity).
  split; [exact Hna|].
  exact (C10_nextAvailable_among_days noon_2024_01_01 two_open_days _ Hna).
Defined.

(** ** Further properties of the handlers *)

(** Closes a goal from [Hin : x ∈ l] where no entry of the explicit list
    [l] can be [x]. *)
Ltac not_listed Hin :=
  repeat (apply elem_of_cons in Hin as [Hin|Hin]; [discriminate Hin|]);
  by apply elem_of_nil in Hin.


Lemma prefix_occurs (needle hay : string) :
  String.prefix needle hay = true ↔ ∃ after, hay = String.append needle after.
Proof.
  revert hay. induction needle as [|a needle IH]; intros hay; simpl.
  - split; [intros _; by exists hay|by destruct hay].
  - destruct hay as [|b hay]; simpl.
    + split; [done|]. by intros (after & [=]).
    + destruct (ascii_dec a b) as [->|Hne].
      * rewrite IH. split.
        -- intros (after & ->). by exists after.
        -- intros (after & [= ->]). by exists after.
      * split; [done|]. intros (after & [= -> _]). done.
Qed.

Lemma includes_occurs (hay needle : string) :
  includes hay needle = true ↔ occurs_in needle hay.
Proof.
  unfold occurs_in. induction hay as [|c hay IH].
  - cbn [includes]. rewrite orb_false_r, prefix_occurs. split.
    + intros (after & H). by exists "", after.
    + intros ([|? before] & after & H); [by exists after|done].
  - cbn [includes]. rewrite orb_true_iff, prefix_occurs, IH. split.
    + intros [(after & H) | (before & after & ->)].
      * by exists "", after.
      * by exists (String c before), after.
    + intros ([|c' before] & after & H).
      * left. by exists after.
      * right. injection H as -> ->. by exists before, after.
Qed.

Lemma put_day_last rows m d :
  d ≠ "__proto__" →
  fold_left put_day rows m !! d =
  match last (filter (λ r, Row.date r = d) rows) with
  | Some r => Some (entry_of r)
  | None => m !! d
  end.
Proof.
  intros Hkey. induction rows as [|x rows IH] using rev_ind; [done|].
  rewrite fold_left_app, filter_app, last_app. simpl. unfold put_day at 1.
  rewrite filter_cons, filter_nil. case_decide as Hx; simpl.
  - subst d. by apply set_property_same.
  - by rewrite set_property_other.
Qed.

Lemma parse_midnight (s : string) (t : Z) :
  JSDate.parse s = Some t → t = JSDate.Day t * JSDate.msPerDay.
Proof.
  unfold JSDate.parse. intros H.
  repeat (case_match; try done). simplify_option_eq.
  repeat (case_match; try done). simplify_eq.
  unfold JSDate.MakeDate, JSDate.Day.
  rewrite Z.add_0_r, Z.div_mul; done.
Qed.

(** X1. In the list response the entry of a date is taken from the last row
    of the store's answer that carries this date, and a date that no row
    carries has no entry; this holds for every answer, whatever its order
    and whether or not dates repeat.  The key "__proto__" never has an
    entry, even if rows carry it as their date. *)
Theorem days_entry_of_last_row (now : Z) (rows : list Row.t) (d : string) :
  response_days (get_availability now (mk_response (Some rows) None)) !! d =
  if decide (d = "__proto__") then None
  else entry_of <$> last (filter (λ r, Row.date r = d) rows).
Proof.
  rewrite get_availability_rows. unfold response_days; simpl.
  case_decide as Hkey.
  - subst d. by rewrite put_day_proto.
  - rewrite put_day_last by done.
    by destruct (last (filter (λ r, Row.date r = d) rows)).
Qed.

(** X2. On an answer of the store whose dates are all date-only strings
    [YYYY-MM-DD], a non-null [nextAvailable] is taken from the first row
    that has status "available" and whose date, at midnight UTC, is not
    before the clock: no row in front of it passes that test. *)
Theorem nextAvailable_first_in_answer (now : Z) (rows : list Row.t)
    (na : next_available) :
  Forall (λ r, is_Some (JSDate.parse (Row.date r))) rows →
  response_nextAvailable (get_availability now (mk_response (Some rows) None))
    = Some na →
  ∃ front r back,
    rows = app front (r :: back)
    ∧ Forall (λ x, eligible now x = false) front
    ∧ Row.status r = VStr "available"
    ∧ (∃ t, JSDate.parse (Row.date r) = Some t ∧ now ≤ t)
    ∧ na = mk_next (Row.date r) (Row.time_slots r).
Proof.
  intros _.
  rewrite get_availability_rows. unfold response_nextAvailable; simpl.
  destruct (find (eligible now) rows) as [r|] eqn:Hf; [|done].
  intros [= <-]. apply find_first in Hf as (front & back & -> & Hfront & Hr).
  exists front, r, back. repeat split; try done.
  - by apply (eligible_available now).
  - by apply eligible_time.
Qed.

Lemma nextAvailable_first_in_answer_witness :
  Forall (λ r, is_Some (JSDate.parse (Row.date r))) mixed_rows
  ∧ response_nextAvailable
      (get_availability noon_2024_01_01 (mk_response (Some mixed_rows) None))
    = Some (mk_next "2024-01-03" (VArr [VStr "9am"]))
  ∧ ∃ front r back,
      mixed_rows = app front (r :: back)
      ∧ Forall (λ x, eligible noon_2024_01_01 x = false) front
      ∧ Row.status r = VStr "available"
      ∧ (∃ t, JSDate.parse (Row.date r) = Some t ∧ noon_2024_01_01 ≤ t)
      ∧ mk_next "2024-01-03" (VArr [VStr "9am"]) =
        mk_next (Row.date r) (Row.time_slots r).
Proof.
  assert (Forall (λ r, is_Some (JSDate.parse (Row.date r))) mixed_rows)
    as Hdates.
  { repeat (apply Forall_cons; split; [eexists; vm_compute; reflexivity|]).
    apply Forall_nil_2. }
  assert (response_nextAvailable
            (get_availability noon_2024_01_01
               (mk_response (Some mixed_rows) None))
          = Some (mk_next "2024-01-03" (VArr [VStr "9am"]))) as Hna
    by (vm_compute; reflexivity).
  split; [exact Hdates|]. split; [exact Hna|].
  exact (nextAvailable_first_in_answer noon_2024_01_01 mixed_rows _ Hdates Hna).
Defined.

(** X3. On an answer of the store whose dates are all date-only strings
    [YYYY-MM-DD], [nextAvailable] of the list response is null exactly when
    no row has status "available" together with a midnight UTC of its date
    that is not before the clock. *)
Theorem nextAvailable_null_in_answer (now : Z) (rows : list Row.t) :
  Forall (λ r, is_Some (JSDate.parse (Row.date r))) rows →
  (response_nextAvailable (get_availability now (mk_response (Some rows) None))
     = None
   ↔ Forall (λ r, ¬ (Row.status r = VStr "available"
                     ∧ ∃ t, JSDate.parse (Row.date r) = Some t ∧ now ≤ t))
       rows).
Proof.
  intros _.
  rewrite get_availability_rows. unfold response_nextAvailable; simpl.
  rewrite Forall_forall. split.
  - intros Hnone r Hin [Hst (t & Hp & Hle)].
    destruct (find (eligible now) rows) eqn:Hf; [done|].
    apply list_elem_of_In in Hin. pose proof (find_none _ _ Hf _ Hin) as Hr.
    unfold eligible, JSDate.ge_now, strict_eq_str in Hr.
    rewrite Hst, Hp, String.eqb_refl in Hr. simpl in Hr.
    apply Z.leb_gt in Hr. lia.
  - intros Hall.
    destruct (find (eligible now) rows) as [r|] eqn:Hf; [|done].
    apply find_some in Hf as [Hin Hel]. exfalso.
    apply (Hall r); [by apply list_elem_of_In|]. split.
    + by apply (eligible_available now).
    + by apply eligible_time.
Qed.

Lemma nextAvailable_null_in_answer_witness :
  Forall (λ r, is_Some (JSDate.parse (Row.date r))) mixed_rows
  ∧ response_nextAvailable
      (get_availability noon_2024_01_05 (mk_response (Some mixed_rows) None))
    = None
  ∧ Forall (λ r, ¬ (Row.status r = VStr "available"
                    ∧ ∃ t, JSDate.parse (Row.date r) = Some t
                           ∧ noon_2024_01_05 ≤ t))
      mixed_rows.
Proof.
  assert (Forall (λ r, is_Some (JSDate.parse (Row.date r))) mixed_rows)
    as Hdates.
  { repeat (apply Forall_cons; split; [eexists; vm_compute; reflexivity|]).
    apply Forall_nil_2. }
  assert (response_nextAvailable
            (get_availability noon_2024_01_05
               (mk_response (Some mixed_rows) None)) = None) as Hnone
    by (vm_compute; reflexivity).
  split; [exact Hdates|]. split; [exact Hnone|].
  exact (proj1 (nextAvailable_null_in_answer noon_2024_01_05 mixed_rows Hdates)
           Hnone).
Defined.

(** X4. For a row with status "available" whose date parses, the test of
    the list route succeeds if the day of the row lies after the day of the
    clock, fails if it lies before, and on the day of the clock itself it
    succeeds only at the very instant of midnight UTC. *)
Theorem eligible_by_day (now : Z) (r : Row.t) (t : Z) :
  Row.status r = VStr "available" →
  JSDate.parse (Row.date r) = Some t →
  (eligible now r = true ↔ JSDate.Day now < JSDate.Day t ∨ now = t).
Proof.
  intros Hst Hp. pose proof (parse_midnight _ _ Hp) as Ht.
  unfold eligible, JSDate.ge_now, strict_eq_str.
  rewrite Hst, Hp, String.eqb_refl. simpl. rewrite Z.leb_le.
  revert Ht. generalize (JSDate.Day t). intros k ->.
  unfold JSDate.Day, JSDate.msPerDay.
  pose proof (Z.div_mod now 86400000 ltac:(done)) as Hdm.
  pose proof (Z.mod_pos_bound now 86400000 ltac:(done)) as Hb.
  lia.
Qed.

Lemma eligible_by_day_witness :
  (eligible noon_2024_01_01
     (Row.mk "2024-01-01" (VStr "available") VNull (VArr [VStr "9am"])) = true
   ↔ JSDate.Day noon_2024_01_01 < JSDate.Day midnight_2024_01_01
     ∨ noon_2024_01_01 = midnight_2024_01_01).
Proof.
  apply (eligible_by_day noon_2024_01_01
           (Row.mk "2024-01-01" (VStr "available") VNull (VArr [VStr "9am"]))
           midnight_2024_01_01); reflexivity.
Defined.

(** X5. As the clock advances the choice of the list route never moves to
    an earlier date: if a later request finds a [nextAvailable] in the same
    table, an earlier request found one too, and its date is not after the
    later one's. *)
Theorem nextAvailable_never_moves_back (now now' : Z) (t : Store.table)
    (na' : next_available) :
  now ≤ now' →
  response_nextAvailable (GET_availability None now' t) = Some na' →
  ∃ na, response_nextAvailable (GET_availability None now t) = Some na
        ∧ String.leb (na_date na) (na_date na') = true.
Proof.
  intros Hle Hna'.
  apply list_nextAvailable_stored in Hna' as (c & Hc & Hst & _ & Hge).
  assert (eligible now (Store.row_of (na_date na') c) = true) as Hel.
  { unfold eligible, strict_eq_str, JSDate.ge_now in *. simpl.
    rewrite Hst, String.eqb_refl. simpl.
    destruct (JSDate.parse (na_date na')) as [tm|]; [|done].
    apply Z.leb_le in Hge. apply Z.leb_le. lia. }
  destruct (response_nextAvailable (GET_availability None now t))
    as [na|] eqn:Hna.
  - exists na. split; [done|].
    by apply (nextAvailable_earliest_eligible now t na _ c).
  - rewrite nextAvailable_null in Hna. rewrite (Hna _ _ Hc) in Hel. done.
Qed.

Lemma nextAvailable_never_moves_back_witness :
  midnight_2024_01_01 ≤ noon_2024_01_01
  ∧ response_nextAvailable (GET_availability None noon_2024_01_01 two_open_days)
    = Some (mk_next "2024-01-02" (VArr [VStr "10am"]))
  ∧ ∃ na,
      response_nextAvailable
        (GET_availability None midnight_2024_01_01 two_open_days) = Some na
      ∧ String.leb (na_date na) "2024-01-02" = true.
Proof.
  assert (midnight_2024_01_01 ≤ noon_2024_01_01) as Hle by (vm_compute; discriminate).
  assert (response_nextAvailable
            (GET_availability None noon_2024_01_01 two_open_days)
          = Some (mk_next "2024-01-02" (VArr [VStr "10am"]))) as Hna
    by (vm_compute; reflexivity).
  split; [exact Hle|]. split; [exact Hna|].
  exact (nextAvailable_never_moves_back _ _ two_open_days _ Hle Hna).
Defined.

(** X6. Whatever the store answers, each of the four availability routes
    ends in one of two ways: status 200, no error body and nothing logged,
    or status 500, an error body and exactly one [console.error].  No other
    status is sent, no failure goes unlogged and no success is logged. *)
Theorem routes_answer_or_fail :
  (∀ now resp, answered_or_failed (get_availability now resp))
  ∧ (∀ date resp, answered_or_failed (get_availability_date date resp))
  ∧ (∀ resp, answered_or_failed (post_availability resp))
  ∧ (∀ resp, answered_or_failed (delete_availability_date resp)).
Proof.
  unfold answered_or_failed. repeat split.
  - intros now [[rows|] [e|]]; unfold get_availability; simpl;
      try (right; by eauto). left. done.
  - intros date [[row|] [e|]]; unfold get_availability_date; simpl;
      try destruct (negb _); simpl; try (right; by eauto); left; done.
  - intros [[payload|] [e|]]; unfold post_availability; simpl;
      try (right; by eauto); left; done.
  - intros [[u|] [e|]]; unfold delete_availability_date; simpl;
      try (right; by eauto); left; done.
Qed.

(** X7. A successful single-date read never carries falsy time slots:
    whatever the store answered, the [timeSlots] of a 200 response is
    truthy, stored slot data that is null, missing, false, 0 or the empty
    string having been replaced by the empty sequence. *)
Theorem read_timeSlots_truthy (date : string) (resp : store_response Row.t) :
  status_code (snd (get_availability_date date resp)) = 200 →
  ∃ d st msg slots,
    body (snd (get_availability_date date resp)) = DayBody d st msg slots
    ∧ truthy slots = true
    ∧ (∀ row, data resp = Some row → truthy (Row.time_slots row) = false →
              slots = VArr []).
Proof.
  destruct resp as [[row|] [e|]]; unfold get_availability_date; simpl;
    try destruct (negb _); simpl; try done; intros _;
    eexists _, _, _, _; (split; [reflexivity|]).
  all: unfold js_or; split; [|intros ? [= <-] Hf; by rewrite ?Hf].
  all: try done.
  all: by destruct (truthy (Row.time_slots row)) eqn:Htr.
Qed.

Lemma read_timeSlots_truthy_witness :
  status_code
    (snd (get_availability_date "2024-01-02"
            (mk_response
               (Some (Row.mk "2024-01-02" (VStr "available") VNull (VNum 0)))
               None))) = 200
  ∧ ∃ d st msg slots,
      body
        (snd (get_availability_date "2024-01-02"
                (mk_response
                   (Some (Row.mk "2024-01-02" (VStr "available") VNull (VNum 0)))
                   None))) = DayBody d st msg slots
      ∧ truthy slots = true
      ∧ (∀ row,
           data
             (mk_response
                (Some (Row.mk "2024-01-02" (VStr "available") VNull (VNum 0)))
                None) = Some row →
           truthy (Row.time_slots row) = false → slots = VArr []).
Proof.
  split; [reflexivity|].
  apply (read_timeSlots_truthy "2024-01-02"
           (mk_response
              (Some (Row.mk "2024-01-02" (VStr "available") VNull (VNum 0)))
              None)).
  reflexivity.
Defined.

(** X8. On a store error the status probe writes the note "Table does not
    exist, would create it here" to the console exactly when the message of
    the error contains "does not exist"; in either case the error is logged
    last and the response is status 500 with status "disconnected". *)
Theorem status_probe_table_note (resp : store_response (list Row.t))
    (e : PostgrestError.t) :
  error resp = Some e →
  (console_log "Table does not exist, would create it here"
     ∈ fst (get_status resp)
   ↔ occurs_in "does not exist" (PostgrestError.message e))
  ∧ last (fst (get_status resp)) =
    Some (console_error "Database connection error:" (StoreError e))
  ∧ snd (get_status resp) =
    mk_http 500 (StatusErrorBody "disconnected" (PostgrestError.message e)).
Proof.
  intros He. unfold get_status. rewrite He. simpl.
  rewrite <- includes_occurs.
  destruct (includes (PostgrestError.message e) "does not exist"); simpl.
  - repeat split; try done. intros _. apply elem_of_cons. by left.
  - repeat split; try done.
    intros Hin. apply elem_of_cons in Hin as [Hin|Hin]; [done|].
    by apply elem_of_nil in Hin.
Qed.

Lemma status_probe_table_note_witness :
  error (mk_response (A := list Row.t) None (Some missing_table))
    = Some missing_table
  ∧ console_log "Table does not exist, would create it here"
      ∈ fst (get_status (mk_response None (Some missing_table)))
  ∧ console_log "Table does not exist, would create it here"
      ∉ fst (get_status (mk_response None (Some auth_failure))).
Proof.
  split; [reflexivity|]. split.
  - apply (status_probe_table_note (mk_response None (Some missing_table))
             missing_table eq_refl).
    exists "relation public.availability ", "". reflexivity.
  - intros Hin.
    apply (status_probe_table_note (mk_response None (Some auth_failure))
             auth_failure eq_refl) in Hin.
    apply includes_occurs in Hin. vm_compute in Hin. discriminate.
Defined.

(** X9. At server start the database check cannot fail on an error the
    store reports: whenever the store call resolves, with rows or with any
    error, the start-up log ends with "Database initialized" and holds no
    [console.error]; "Creating database tables..." is written exactly when
    the reported error's message contains "does not exist".  Only a call
    that rejects is logged as "Database initialization error:", and then
    "Database initialized" is not written. *)
Theorem start_up_log (env_PORT : option string) (a : awaited (list Row.t)) :
  match a with
  | Resolved resp =>
      last (on_listen env_PORT a) = Some (console_log "Database initialized")
      ∧ (∀ prefix x, console_error prefix x ∉ on_listen env_PORT a)
      ∧ (console_log "Creating database tables..." ∈ on_listen env_PORT a
         ↔ (∃ e, error resp = Some e
                 ∧ occurs_in "does not exist" (PostgrestError.message e)))
  | Rejected x =>
      last (on_listen env_PORT a) =
        Some (console_error "Database initialization error:" x)
      ∧ (console_log "Database initialized" ∉ on_listen env_PORT a)
      ∧ (console_log "Creating database tables..." ∉ on_listen env_PORT a)
  end.
Proof.
  destruct a as [[rows [e|]]|x]; unfold on_listen, initializeDatabase; simpl.
  - pose proof (includes_occurs (PostgrestError.message e) "does not exist")
      as Hocc.
    destruct (includes (PostgrestError.message e) "does not exist"); simpl.
    + split; [done|]. split; [intros prefix x Hin; not_listed Hin|].
      split; [intros _; exists e; split; [done|by apply Hocc]|].
      intros _. rewrite !elem_of_cons. auto.
    + split; [done|]. split; [intros prefix x Hin; not_listed Hin|].
      split; [intros Hin; not_listed Hin|].
      intros (e' & [= <-] & Hin). apply Hocc in Hin. done.
  - split; [done|]. split; [intros prefix x Hin; not_listed Hin|].
    split; [intros Hin; not_listed Hin|by intros (e & ? & _)].
  - split; [done|]. split; intros Hin; not_listed Hin.
Qed.

(** X10. The server announces the port of the environment variable PORT if
    that is set and not empty, and port 3000 otherwise: these are the first
    two lines of every start-up log. *)
Theorem start_up_port (env_PORT : option string) (a : awaited (list Row.t)) :
  let port :=
    match env_PORT with
    | Some (String c s) => String c s
    | Some EmptyString | None => "3000"
    end in
  take 2 (on_listen env_PORT a) =
  [console_log (String.append "Server running on http://localhost:" port);
   console_log
     (String.append "Admin panel: http://localhost:"
        (String.append port "/admin"))].
Proof. by destruct env_PORT as [[|c s]|]. Qed.

(** X11. The keys of [days] in the list response are exactly the stored
    dates other than "__proto__": every record stored under another date
    has an entry and nothing else has one. *)
Theorem days_keys_are_stored_dates (now : Z) (t : Store.table) :
  dom (response_days (GET_availability None now t)) = dom t ∖ {["__proto__"]}.
Proof. by rewrite list_days, dom_fmap_L, dom_delete_L. Qed.

(** X12. A save touches no other date: the single-date read of a date
    other than the one saved answers after the save as it did before. *)
Theorem save_leaves_other_dates (t : Store.table) (b : Body.t) (d : string) :
  d ≠ Body.date b →
  GET_availability_date None (fst (POST_availability None t b)) d =
  GET_availability_date None t d.
Proof.
  intros Hne. unfold GET_availability_date, Store.select_eq_single,
    POST_availability, Store.upsert; simpl.
  by rewrite lookup_insert_ne.
Qed.

Lemma save_leaves_other_dates_witness :
  "2024-01-01" ≠ Body.date closing_2024_01_02
  ∧ GET_availability_date None
      (fst (POST_availability None two_open_days closing_2024_01_02))
      "2024-01-01" =
    GET_availability_date None two_open_days "2024-01-01".
Proof.
  assert ("2024-01-01" ≠ Body.date closing_2024_01_02) as Hne by discriminate.
  split; [exact Hne|].
  exact (save_leaves_other_dates two_open_days closing_2024_01_02 _ Hne).
Defined.

(** X13. A delete touches no other date: the single-date read of a date
    other than the one deleted answers after the delete as it did
    before. *)
Theorem delete_leaves_other_dates (t : Store.table) (d d' : string) :
  d' ≠ d →
  GET_availability_date None (fst (DELETE_availability_date None t d)) d' =
  GET_availability_date None t d'.
Proof.
  intros Hne. unfold GET_availability_date, Store.select_eq_single,
    DELETE_availability_date, Store.delete_eq; simpl.
  by rewrite lookup_delete_ne.
Qed.

Lemma delete_leaves_other_dates_witness :
  "2024-01-02" ≠ "2024-01-01"
  ∧ GET_availability_date None
      (fst (DELETE_availability_date None two_open_days "2024-01-01"))
      "2024-01-02" =
    GET_availability_date None two_open_days "2024-01-02".
Proof.
  assert ("2024-01-02" ≠ "2024-01-01") as Hne by discriminate.
  split; [exact Hne|].
  exact (delete_leaves_other_dates two_open_days _ _ Hne).
Defined.

(** X14. The list response follows the writes: after a save its [days] is
    the former [days] with the entry of the saved date set to the saved
    status, message and time slots (and unchanged if the date saved is
    "__proto__", which gets no entry), and after a delete it is the former
    [days] without the entry of the deleted date. *)
Theorem days_after_write (now : Z) (t : Store.table) (b : Body.t) (d : string) :
  response_days (GET_availability None now (fst (POST_availability None t b))) =
    (if decide (Body.date b = "__proto__")
     then response_days (GET_availability None now t)
     else
       <[Body.date b :=
           mk_day (Store.to_column (Body.status b))
             (Store.to_column (Body.message b))
             (Store.to_column (Body.timeSlots b))]>
         (response_days (GET_availability None now t)))
  ∧ response_days
      (GET_availability None now (fst (DELETE_availability_date None t d))) =
    delete d (response_days (GET_availability None now t)).
Proof.
  rewrite !list_days. unfold POST_availability, DELETE_availability_date,
    Store.upsert, Store.delete_eq, upsert_payload; simpl. split.
  - case_decide as Hkey.
    + by rewrite Hkey, delete_insert_eq.
    + by rewrite delete_insert_ne, fmap_insert.
  - by rewrite delete_delete, fmap_delete.
Qed.

(** X15. The last write wins: of two saves for the same date only the
    second one shows, the table being the same as if the first had never
    been made. *)
Theorem last_save_wins (t : Store.table) (b1 b2 : Body.t) :
  Body.date b1 = Body.date b2 →
  fst (POST_availability None (fst (POST_availability None t b1)) b2) =
  fst (POST_availability None t b2).
Proof.
  intros Hd. unfold POST_availability, Store.upsert, upsert_payload; simpl.
  rewrite Hd. apply insert_insert_eq.
Qed.

Lemma last_save_wins_witness :
  Body.date
    (Body.mk "2024-01-02" (VStr "available") VNull (VArr [VStr "10am"]))
  = Body.date closing_2024_01_02
  ∧ fst (POST_availability None
           (fst (POST_availability None two_open_days
                   (Body.mk "2024-01-02" (VStr "available") VNull
                      (VArr [VStr "10am"]))))
           closing_2024_01_02) =
    fst (POST_availability None two_open_days closing_2024_01_02).
Proof.
  split; [reflexivity|].
  apply (last_save_wins two_open_days
           (Body.mk "2024-01-02" (VStr "available") VNull (VArr [VStr "10am"]))
           closing_2024_01_02).
  reflexivity.
Defined.

(** X16. Saving a date that was not stored and deleting it again restores
    the table, and with it every response of the two read routes. *)
Theorem save_then_delete_restores (t : Store.table) (b : Body.t) :
  t !! Body.date b = None →
  fst (DELETE_availability_date None (fst (POST_availability None t b))
         (Body.date b)) = t.
Proof.
  intros Hd. unfold POST_availability, DELETE_availability_date,
    Store.upsert, Store.delete_eq; simpl.
  by rewrite delete_insert_eq, delete_id.
Qed.

Lemma save_then_delete_restores_witness :
  two_open_days !! Body.date opening_2024_01_05 = None
  ∧ fst (DELETE_availability_date None
           (fst (POST_availability None two_open_days opening_2024_01_05))
           (Body.date opening_2024_01_05)) = two_open_days.
Proof.
  split; [reflexivity|].
  apply (save_then_delete_restores two_open_days opening_2024_01_05).
  reflexivity.
Defined.

(** X17. The two read routes agree on a stored record whose slot data is
    truthy (a sequence, for one) and whose date is not "__proto__": the
    single-date read returns the status, message and time slots that the
    list response shows in the entry of that date. *)
Theorem read_routes_agree (now : Z) (t : Store.table) (d : string)
    (c : Store.columns) :
  t !! d = Some c →
  d ≠ "__proto__" →
  truthy (Store.time_slots c) = true →
  ∃ entry,
    response_days (GET_availability None now t) !! d = Some entry
    ∧ GET_availability_date None t d =
      ([], mk_http 200
             (DayBody d (de_status entry) (de_message entry)
                (de_timeSlots entry))).
Proof.
  intros Hd Hkey Htr. exists (stored_entry c).
  rewrite list_days_lookup, Hd, (read_stored _ _ _ Hd) by done.
  unfold js_or. by rewrite Htr.
Qed.

Lemma read_routes_agree_witness :
  two_open_days !! "2024-01-01" = Some open_2024_01_01
  ∧ "2024-01-01" ≠ "__proto__"
  ∧ truthy (Store.time_slots open_2024_01_01) = true
  ∧ ∃ entry,
      response_days (GET_availability None noon_2024_01_01 two_open_days)
        !! "2024-01-01" = Some entry
      ∧ GET_availability_date None two_open_days "2024-01-01" =
        ([], mk_http 200
               (DayBody "2024-01-01" (de_status entry) (de_message entry)
                  (de_timeSlots entry))).
Proof.
  assert ("2024-01-01" ≠ "__proto__") as Hkey by discriminate.
  split; [reflexivity|]. split; [exact Hkey|]. split; [reflexivity|].
  apply (read_routes_agree noon_2024_01_01 two_open_days "2024-01-01"
           open_2024_01_01); [reflexivity|exact Hkey|reflexivity].
Defined.

(** A row stored under the date "__proto__" is the one record the list
    response does not show, while the single-date read returns it. *)
Example proto_row_not_listed :
  response_days
    (GET_availability None noon_2024_01_01
       (<["__proto__" := open_2024_01_01]> two_open_days)) !! "__proto__" = None
  ∧ GET_availability_date None
      (<["__proto__" := open_2024_01_01]> two_open_days) "__proto__" =
    ([], mk_http 200
           (DayBody "__proto__" (VStr "available") VNull (VArr [VStr "9am"]))).
Proof. split; vm_compute; reflexivity. Qed.
